(** * BitstreamDataService (src/app/core/data/bitstream-data.service.ts)

    A shallow embedding of the thumbnail and bundle lookups of
    [BitstreamDataService].  Observables are modelled as finite streams
    of emissions that either complete or terminate with an error
    notification; a JavaScript callback that may throw returns a value
    of the exception monad [Js].  [switchMap] is modelled for inner
    observables that emit synchronously (each inner stream completes
    before the next outer emission), where it coincides with
    concatenation of the inner streams. *)

From Stdlib Require Import List String ZArith Bool.
Import ListNotations.
Open Scope string_scope.
Open Scope Z_scope.

(** ** JavaScript values and exceptions *)

Inductive Js (A : Type) : Type :=
| JsOk : A -> Js A
| JsThrow : string -> Js A.
Arguments JsOk {A} _.
Arguments JsThrow {A} _.

Definition js_bind {A B : Type} (m : Js A) (k : A -> Js B) : Js B :=
  match m with
  | JsOk a => k a
  | JsThrow e => JsThrow e
  end.

Notation "'let!' x ':=' m 'in' k" := (js_bind m (fun x => k))
  (at level 200, x name, m at level 100, k at level 200).

(** Property access [o.f] on a reference that may be [undefined]/[null]:
    a [TypeError] is thrown when the reference is absent. *)
Definition deref {A : Type} (o : option A) : Js A :=
  match o with
  | Some a => JsOk a
  | None => JsThrow "TypeError: Cannot read property of undefined"
  end.

(** [hasValue] of shared/empty.util: not [undefined] and not [null]. *)
Definition hasValue {A : Type} (o : option A) : bool :=
  match o with Some _ => true | None => false end.

(** Short-circuit [a && b] where evaluating [b] may throw. *)
Definition js_andb (a : bool) (b : unit -> Js bool) : Js bool :=
  if a then b tt else JsOk false.

(** ** Observables *)

Inductive obs (A : Type) : Type :=
| ONil : obs A
| OErr : string -> obs A
| OCons : A -> obs A -> obs A.
Arguments ONil {A}.
Arguments OErr {A} _.
Arguments OCons {A} _ _.

(** An array returned from a [switchMap] projection: emits its elements. *)
Fixpoint of_list {A : Type} (l : list A) : obs A :=
  match l with
  | [] => ONil
  | x :: r => OCons x (of_list r)
  end.

(** Concatenation: the second stream is subscribed once the first completes. *)
Fixpoint obs_app {A : Type} (s t : obs A) : obs A :=
  match s with
  | ONil => t
  | OErr e => OErr e
  | OCons x r => OCons x (obs_app r t)
  end.

(** The [map] operator: a throwing projection becomes an error notification. *)
Fixpoint obs_map {A B : Type} (f : A -> Js B) (s : obs A) : obs B :=
  match s with
  | ONil => ONil
  | OErr e => OErr e
  | OCons x r =>
      match f x with
      | JsOk y => OCons y (obs_map f r)
      | JsThrow e => OErr e
      end
  end.

(** The [switchMap] operator, for synchronously completing inner streams. *)
Fixpoint switchMap {A B : Type} (f : A -> Js (obs B)) (s : obs A) : obs B :=
  match s with
  | ONil => ONil
  | OErr e => OErr e
  | OCons x r =>
      match f x with
      | JsOk inner => obs_app inner (switchMap f r)
      | JsThrow e => OErr e
      end
  end.

Fixpoint obs_In {A : Type} (a : A) (s : obs A) : Prop :=
  match s with
  | ONil => False
  | OErr _ => False
  | OCons x r => x = a \/ obs_In a r
  end.

(** The stream completes normally (no error notification). *)
Fixpoint obs_no_err {A : Type} (s : obs A) : Prop :=
  match s with
  | ONil => True
  | OErr _ => False
  | OCons _ r => obs_no_err r
  end.

(** ** Data model *)

Record RemoteDataError : Type := mkRemoteDataError {
  statusCode : Z;
  statusText : string;
  message : string
}.

(** Modelled from the spec: [RemoteData] (src/app/core/data/remote-data.ts,
    not under src/), the asynchronous envelope of spec section 3 with the
    fields [isRequestPending], [isResponsePending], [hasSucceeded], [error]
    and [payload], filled in the order of the constructor arguments
    [new RemoteData(requestPending, responsePending, isSuccessful, error,
    payload)]. *)
Record RemoteData (T : Type) : Type := mkRemoteData {
  isRequestPending : bool;
  isResponsePending : bool;
  hasSucceeded : bool;
  error : option RemoteDataError;
  payload : option T
}.
Arguments mkRemoteData {T} _ _ _ _ _.
Arguments isRequestPending {T} _.
Arguments isResponsePending {T} _.
Arguments hasSucceeded {T} _.
Arguments error {T} _.
Arguments payload {T} _.

Record PageInfo : Type := mkPageInfo {
  elementsPerPage : Z;
  totalElements : Z;
  currentPage : Z
}.

Record PaginatedList (T : Type) : Type := mkPaginatedList {
  pageInfo : PageInfo;
  page : option (list T)
}.
Arguments mkPaginatedList {T} _ _.
Arguments pageInfo {T} _.
Arguments page {T} _.

Record HALLink : Type := mkHALLink { href : string }.

Record BundleLinks : Type := mkBundleLinks {
  self : HALLink;
  primaryBitstream : HALLink;
  bitstreams : HALLink
}.

Record Bundle : Type := mkBundle {
  bundle_name : string;
  _links : BundleLinks
}.

Record Bitstream : Type := mkBitstream {
  bitstream_uuid : string;
  name : string
}.

Record Item : Type := mkItem { item_uuid : string }.

(** [FindListOptions]: the optional query fields used here. *)
Record FindListOptions : Type := mkFindListOptions {
  opt_elementsPerPage : option Z;
  opt_currentPage : option Z
}.

Record FollowLinkConfig : Type := mkFollowLinkConfig { linkName : string }.

(** [isNotEmpty] of shared/empty.util on a [Bundle] reference: an object
    is empty when it has no own keys; a [Bundle] object always carries its
    own [_links], so the reference is non-empty exactly when present. *)
Definition isNotEmpty_bundle (o : option Bundle) : bool := hasValue o.

(** The value behind [x as any]: the runtime object is unchanged, only its
    static type is erased, so the payload keeps its own kind. *)
Inductive AnyPayload : Type :=
| AnyBitstream : Bitstream -> AnyPayload
| AnyList : PaginatedList Bitstream -> AnyPayload
| AnyBundle : Bundle -> AnyPayload.

Definition as_any {T : Type} (inj : T -> AnyPayload) (rd : RemoteData T)
  : RemoteData AnyPayload :=
  mkRemoteData (isRequestPending rd) (isResponsePending rd) (hasSucceeded rd)
    (error rd) (option_map inj (payload rd)).

(** [rd as any] for a wrapper whose payload is absent: the same object,
    read at another payload type. *)
Definition as_absent {T U : Type} (rd : RemoteData T) : RemoteData U :=
  mkRemoteData (isRequestPending rd) (isResponsePending rd) (hasSucceeded rd)
    (error rd) None.

(** [Number.MAX_SAFE_INTEGER]. *)
Definition MAX_SAFE_INTEGER : Z := 9007199254740991.

(** [thumbnail.name.startsWith(original.name)]. *)
Definition startsWith (s prefix_ : string) : bool := String.prefix prefix_ s.

(** ** Concrete collaborators

    A small REST fixture: an item whose THUMBNAIL bundle lists the given
    bitstreams, answering every listing request in one page. *)

Definition hal (h : string) : HALLink := mkHALLink h.

Definition thumbnailBundle : Bundle :=
  mkBundle "THUMBNAIL"
    (mkBundleLinks (hal "/bundles/t1") (hal "/bundles/t1/primaryBitstream")
       (hal "/bundles/t1/bitstreams")).

Definition sampleItem : Item := mkItem "item-1".

Definition coverJpg : Bitstream := mkBitstream "bs-1" "cover.jpg".
Definition coverJpgThumb : Bitstream := mkBitstream "bs-2" "cover.jpg.jpg".
Definition otherThumb : Bitstream := mkBitstream "bs-3" "other.pdf.jpg".

Definition succeeded {T : Type} (x : T) : RemoteData T :=
  mkRemoteData false false true None (Some x).

Definition pendingBundle : RemoteData Bundle :=
  mkRemoteData false true false None None.

(** [findByItemAndName] answering THUMBNAIL with [thumbnailBundle]. *)
Definition fixtureBundles (bundleRD : RemoteData Bundle) (_ : Item) (n : string)
  : obs (RemoteData Bundle) :=
  if String.eqb n "THUMBNAIL" then OCons bundleRD ONil else ONil.

(** [findAllByHref] answering the THUMBNAIL bitstreams link with [pg]. *)
Definition fixtureBitstreams (pg : list Bitstream) (h : string)
  (_ : option FindListOptions) (_ : list FollowLinkConfig)
  : obs (RemoteData (PaginatedList Bitstream)) :=
  if String.eqb h "/bundles/t1/bitstreams" then
    OCons (succeeded (mkPaginatedList
                        (mkPageInfo (Z.of_nat (List.length pg)) (Z.of_nat (List.length pg)) 0)
                        (Some pg))) ONil
  else ONil.

(** ** The service *)

Section BitstreamDataService.

(** [bundleService.findByItemAndName]. *)
Variable findByItemAndName : Item -> string -> obs (RemoteData Bundle).

(** [DataService.findAllByHref] (the [options] argument is optional). *)
Variable findAllByHref : string -> option FindListOptions ->
  list FollowLinkConfig -> obs (RemoteData (PaginatedList Bitstream)).

Definition findAllByBundle (bundle : option Bundle)
  (options : option FindListOptions) (linksToFollow : list FollowLinkConfig)
  : Js (obs (RemoteData (PaginatedList Bitstream))) :=
  let! b := deref bundle in
  JsOk (findAllByHref (href (bitstreams (_links b))) options linksToFollow).

Definition thumbnailOptions : FindListOptions :=
  mkFindListOptions (Some 1) None.

Definition matchingThumbnailOptions : FindListOptions :=
  mkFindListOptions (Some MAX_SAFE_INTEGER) None.

(** [hasValue(bitstreamRD.payload) && hasValue(bitstreamRD.payload.page)] *)
Definition hasPage (bitstreamRD : RemoteData (PaginatedList Bitstream))
  : Js bool :=
  js_andb (hasValue (payload bitstreamRD))
    (fun _ => let! pl := deref (payload bitstreamRD) in
              JsOk (hasValue (page pl))).

(** The map projection of [getThumbnailFor] (lines 77-89). *)
Definition thumbnailFromPage (bitstreamRD : RemoteData (PaginatedList Bitstream))
  : Js (RemoteData AnyPayload) :=
  let! c := hasPage bitstreamRD in
  if c then
    let! pl := deref (payload bitstreamRD) in
    let! pg := deref (page pl) in
    JsOk (mkRemoteData false false true None
            (option_map AnyBitstream (hd_error pg)))
  else JsOk (as_any AnyList bitstreamRD).

Definition getThumbnailFor (item : Item) : obs (RemoteData AnyPayload) :=
  switchMap
    (fun bundleRD : RemoteData Bundle =>
       if isNotEmpty_bundle (payload bundleRD) then
         let! s := findAllByBundle (payload bundleRD) (Some thumbnailOptions) [] in
         JsOk (obs_map thumbnailFromPage s)
       else JsOk (of_list [as_any AnyBundle bundleRD]))
    (findByItemAndName item "THUMBNAIL").

(** The error synthesized when no thumbnail matches (line 131). *)
Definition noMatchError : RemoteDataError :=
  mkRemoteDataError 404 "404" "No matching thumbnail found".

(** The map projection of [getMatchingThumbnail] (lines 113-138). *)
Definition matchingFromPage (bitstreamInOriginal : Bitstream)
  (bitstreamRD : RemoteData (PaginatedList Bitstream))
  : Js (RemoteData AnyPayload) :=
  let! c := hasPage bitstreamRD in
  if c then
    let! pl := deref (payload bitstreamRD) in
    let! pg := deref (page pl) in
    let matchingThumbnail :=
      find (fun thumbnail => startsWith (name thumbnail) (name bitstreamInOriginal)) pg in
    if hasValue matchingThumbnail then
      JsOk (mkRemoteData false false true None
              (option_map AnyBitstream matchingThumbnail))
    else
      JsOk (mkRemoteData false false false (Some noMatchError) None)
  else JsOk (as_any AnyList bitstreamRD).

Definition getMatchingThumbnail (item : Item) (bitstreamInOriginal : Bitstream)
  : obs (RemoteData AnyPayload) :=
  switchMap
    (fun bundleRD : RemoteData Bundle =>
       if isNotEmpty_bundle (payload bundleRD) then
         let! s := findAllByBundle (payload bundleRD)
                     (Some matchingThumbnailOptions) [] in
         JsOk (obs_map (matchingFromPage bitstreamInOriginal) s)
       else JsOk (of_list [as_any AnyBundle bundleRD]))
    (findByItemAndName item "THUMBNAIL").

Definition findAllByItemAndBundleName (item : Item) (bundleName : string)
  (options : option FindListOptions) (linksToFollow : list FollowLinkConfig)
  : obs (RemoteData (PaginatedList Bitstream)) :=
  switchMap
    (fun bundleRD : RemoteData Bundle =>
       if hasValue (payload bundleRD) then
         findAllByBundle (payload bundleRD) options linksToFollow
       else JsOk (of_list [as_absent bundleRD]))
    (findByItemAndName item bundleName).


(** The error notification a stream ends with, if any. *)
Fixpoint obs_error {A : Type} (s : obs A) : option string :=
  match s with
  | ONil => None
  | OErr e => Some e
  | OCons _ r => obs_error r
  end.



(** ** Stream lemmas *)

Lemma obs_In_app {A : Type} (a : A) (s t : obs A) :
  obs_In a (obs_app s t) -> obs_In a s \/ obs_In a t.
Proof.
  induction s as [| e | x r IH]; simpl; auto.
  intros [H | H]; auto. destruct (IH H); auto.
Qed.

Lemma obs_In_map {A B : Type} (f : A -> Js B) (b : B) (s : obs A) :
  obs_In b (obs_map f s) -> exists a, obs_In a s /\ f a = JsOk b.
Proof.
  induction s as [| e | x r IH]; simpl; try tauto.
  destruct (f x) as [y | e] eqn:Hf; simpl; [| tauto].
  intros [H | H].
  - subst. exists x. auto.
  - destruct (IH H) as (a & Ha & Hfa). exists a. auto.
Qed.

Lemma obs_In_switchMap {A B : Type} (f : A -> Js (obs B)) (b : B) (s : obs A) :
  obs_In b (switchMap f s) ->
  exists a inner, obs_In a s /\ f a = JsOk inner /\ obs_In b inner.
Proof.
  induction s as [| e | x r IH]; simpl; try tauto.
  destruct (f x) as [inner | e] eqn:Hf; simpl; [| tauto].
  intros H. destruct (obs_In_app _ _ _ H) as [Hi | Hr].
  - exists x, inner. auto.
  - destruct (IH Hr) as (a & i & Ha & Hfa & Hb). exists a, i. auto.
Qed.

Lemma obs_no_err_app {A : Type} (s t : obs A) :
  obs_no_err s -> obs_no_err t -> obs_no_err (obs_app s t).
Proof. induction s; simpl; tauto. Qed.

Lemma obs_no_err_map {A B : Type} (f : A -> Js B) (s : obs A) :
  (forall a, exists b, f a = JsOk b) -> obs_no_err s -> obs_no_err (obs_map f s).
Proof.
  intros Hf. induction s as [| e | x r IH]; simpl; try tauto.
  destruct (Hf x) as [y Hy]. rewrite Hy. simpl. exact IH.
Qed.

Lemma obs_no_err_switchMap {A B : Type} (f : A -> Js (obs B)) (s : obs A) :
  (forall a, obs_In a s -> exists inner, f a = JsOk inner /\ obs_no_err inner) ->
  obs_no_err s -> obs_no_err (switchMap f s).
Proof.
  induction s as [| e | x r IH]; simpl; try tauto.
  intros Hf Hr. destruct (Hf x (or_introl eq_refl)) as (inner & Hi & Hn).
  rewrite Hi. apply obs_no_err_app; auto.
Qed.

Lemma switchMap_ext {A B : Type} (f g : A -> Js (obs B)) (s : obs A) :
  (forall a, f a = g a) -> switchMap f s = switchMap g s.
Proof.
  intros H. induction s as [| e | x r IH]; simpl; auto.
  rewrite H. destruct (g x); auto. now rewrite IH.
Qed.

Lemma obs_map_ext {A B : Type} (f g : A -> Js B) (s : obs A) :
  (forall a, f a = g a) -> obs_map f s = obs_map g s.
Proof.
  intros H. induction s as [| e | x r IH]; simpl; auto.
  rewrite H. destruct (g x); auto. now rewrite IH.
Qed.

(** ** Projections *)

Lemma find_app_no_match {A : Type} (p : A -> bool) (pre post : list A) (x : A) :
  Forall (fun y => p y = false) pre -> p x = true -> find p ((pre ++ x :: post)%list) = Some x.
Proof.
  induction 1 as [| y l Hy _ IH]; intros Hx; simpl.
  - now rewrite Hx.
  - rewrite Hy. now apply IH.
Qed.

Lemma find_none_forall {A : Type} (p : A -> bool) (l : list A) :
  Forall (fun y => p y = false) l -> find p l = None.
Proof. induction 1 as [| y r Hy _ IH]; simpl; auto. now rewrite Hy. Qed.

Lemma thumbnailFromPage_total (w : RemoteData (PaginatedList Bitstream)) :
  exists e, thumbnailFromPage w = JsOk e.
Proof.
  destruct w as [a b c d [[pi [pg |]] |]]; unfold thumbnailFromPage; simpl; eauto.
Qed.

Lemma matchingFromPage_total (o : Bitstream) (w : RemoteData (PaginatedList Bitstream)) :
  exists e, matchingFromPage o w = JsOk e.
Proof.
  destruct w as [a b c d [[pi [pg |]] |]]; unfold matchingFromPage; simpl; eauto.
  destruct (find _ pg); simpl; eauto.
Qed.

(** The projections produce either a wrapper they construct, which
    satisfies the wrapper invariant, or the listing wrapper itself. *)
Definition wrapper_invariant {T : Type} (rd : RemoteData T) : Prop :=
  if hasSucceeded rd then error rd = None else error rd <> None.

Lemma thumbnailFromPage_cases (w : RemoteData (PaginatedList Bitstream))
  (e : RemoteData AnyPayload) :
  thumbnailFromPage w = JsOk e -> wrapper_invariant e \/ e = as_any AnyList w.
Proof.
  destruct w as [a b c d [[pi [pg |]] |]]; unfold thumbnailFromPage; simpl;
    intros H; injection H as <-; [left; reflexivity | right | right]; reflexivity.
Qed.

Lemma matchingFromPage_cases (o : Bitstream) (w : RemoteData (PaginatedList Bitstream))
  (e : RemoteData AnyPayload) :
  matchingFromPage o w = JsOk e -> wrapper_invariant e \/ e = as_any AnyList w.
Proof.
  destruct w as [a b c d [[pi [pg |]] |]]; unfold matchingFromPage; simpl;
    intros H.
  - destruct (find _ pg); simpl in H; injection H as <-; left; simpl;
      [reflexivity | discriminate].
  - injection H as <-. right. reflexivity.
  - injection H as <-. right. reflexivity.
Qed.

(** ** Claims *)

(** C1: when the THUMBNAIL bundle resolves with a payload and its bitstream
    page holds no bitstream whose name starts with the original's name,
    [getMatchingThumbnail] emits a Failed wrapper ([hasSucceeded = false])
    whose error has status code 404 and message "No matching thumbnail found". *)
Theorem getMatchingThumbnail_no_match_404 (item : Item) (orig : Bitstream)
  (bundleRD : RemoteData Bundle) (b : Bundle)
  (bitstreamRD : RemoteData (PaginatedList Bitstream))
  (pl : PaginatedList Bitstream) (pg : list Bitstream) :
  findByItemAndName item "THUMBNAIL" = OCons bundleRD ONil ->
  payload bundleRD = Some b ->
  findAllByHref (href (bitstreams (_links b))) (Some matchingThumbnailOptions) [] =
    OCons bitstreamRD ONil ->
  payload bitstreamRD = Some pl ->
  page pl = Some pg ->
  Forall (fun t => startsWith (name t) (name orig) = false) pg ->
  exists rd, getMatchingThumbnail item orig = OCons rd ONil /\
    hasSucceeded rd = false /\
    option_map statusCode (error rd) = Some 404 /\
    option_map message (error rd) = Some "No matching thumbnail found".
Proof.
  intros Hb Hbp Hs Hsp Hpg Hno.
  unfold getMatchingThumbnail. rewrite Hb. simpl. rewrite Hbp. simpl.
  rewrite Hs. simpl. unfold matchingFromPage, hasPage. rewrite Hsp. simpl.
  rewrite Hpg. simpl. rewrite (find_none_forall _ _ Hno). simpl.
  eexists. split; [reflexivity | repeat split].
Qed.

(** C3: when the THUMBNAIL bundle resolves with a payload and the listing
    requested with [elementsPerPage = 1] yields a page with a first element,
    [getThumbnailFor] emits a Success wrapper, without error, whose payload
    is that first element. *)
Theorem getThumbnailFor_first_of_page (item : Item)
  (bundleRD : RemoteData Bundle) (b : Bundle)
  (bitstreamRD : RemoteData (PaginatedList Bitstream))
  (pl : PaginatedList Bitstream) (x : Bitstream) (rest : list Bitstream) :
  findByItemAndName item "THUMBNAIL" = OCons bundleRD ONil ->
  payload bundleRD = Some b ->
  findAllByHref (href (bitstreams (_links b))) (Some thumbnailOptions) [] =
    OCons bitstreamRD ONil ->
  payload bitstreamRD = Some pl ->
  page pl = Some (x :: rest) ->
  opt_elementsPerPage thumbnailOptions = Some 1 /\
  exists rd, getThumbnailFor item = OCons rd ONil /\
    hasSucceeded rd = true /\ error rd = None /\
    payload rd = Some (AnyBitstream x).
Proof.
  intros Hb Hbp Hs Hsp Hpg. split; [reflexivity |].
  unfold getThumbnailFor. rewrite Hb. simpl. rewrite Hbp. simpl.
  rewrite Hs. simpl. unfold thumbnailFromPage, hasPage. rewrite Hsp. simpl.
  rewrite Hpg. simpl.
  eexists. split; [reflexivity | repeat split].
Qed.

(** C4: when the THUMBNAIL bundle resolves with a payload and its bitstream
    page holds a bitstream whose name starts with the original's name,
    [getMatchingThumbnail] emits a Success wrapper whose payload is the first
    such bitstream in page order. *)
Theorem getMatchingThumbnail_first_match (item : Item) (orig : Bitstream)
  (bundleRD : RemoteData Bundle) (b : Bundle)
  (bitstreamRD : RemoteData (PaginatedList Bitstream))
  (pl : PaginatedList Bitstream) (pre post : list Bitstream) (x : Bitstream) :
  findByItemAndName item "THUMBNAIL" = OCons bundleRD ONil ->
  payload bundleRD = Some b ->
  findAllByHref (href (bitstreams (_links b))) (Some matchingThumbnailOptions) [] =
    OCons bitstreamRD ONil ->
  payload bitstreamRD = Some pl ->
  page pl = Some ((pre ++ x :: post)%list) ->
  Forall (fun t => startsWith (name t) (name orig) = false) pre ->
  startsWith (name x) (name orig) = true ->
  exists rd, getMatchingThumbnail item orig = OCons rd ONil /\
    hasSucceeded rd = true /\ error rd = None /\
    payload rd = Some (AnyBitstream x).
Proof.
  intros Hb Hbp Hs Hsp Hpg Hpre Hx.
  unfold getMatchingThumbnail. rewrite Hb. simpl. rewrite Hbp. simpl.
  rewrite Hs. simpl. unfold matchingFromPage, hasPage. rewrite Hsp. simpl.
  rewrite Hpg. simpl.
  rewrite (find_app_no_match
             (fun t => startsWith (name t) (name orig)) pre post x Hpre Hx).
  simpl. eexists. split; [reflexivity | repeat split].
Qed.

(** C2 (amended): [getThumbnailFor] synthesizes no 404.  When the
    THUMBNAIL bundle lookup emits a wrapper without payload, that wrapper is
    emitted unchanged; when the bitstream listing emits a wrapper without
    payload or without page, the listing wrapper is emitted unchanged; when
    the page is empty, a succeeded wrapper without error and with absent
    payload is emitted. *)
Theorem getThumbnailFor_absent_cases (item : Item) (bundleRD : RemoteData Bundle) :
  findByItemAndName item "THUMBNAIL" = OCons bundleRD ONil ->
  (payload bundleRD = None ->
   getThumbnailFor item = OCons (as_any AnyBundle bundleRD) ONil) /\
  (forall (b : Bundle) (bitstreamRD : RemoteData (PaginatedList Bitstream)),
     payload bundleRD = Some b ->
     findAllByHref (href (bitstreams (_links b))) (Some thumbnailOptions) [] =
       OCons bitstreamRD ONil ->
     (match payload bitstreamRD with
      | None => True
      | Some pl => page pl = None
      end ->
      getThumbnailFor item = OCons (as_any AnyList bitstreamRD) ONil) /\
     (forall pl, payload bitstreamRD = Some pl -> page pl = Some [] ->
      getThumbnailFor item = OCons (mkRemoteData false false true None None) ONil)).
Proof.
  intros Hb. unfold getThumbnailFor. rewrite Hb. simpl. split.
  - intros Hn. rewrite Hn. reflexivity.
  - intros b w Hbp Hs. rewrite Hbp. simpl. rewrite Hs. simpl.
    unfold thumbnailFromPage, hasPage. split.
    + destruct (payload w) as [pl |] eqn:Hw; simpl.
      * intros Hp. rewrite Hp. reflexivity.
      * intros _. reflexivity.
    + intros pl Hw Hp. rewrite Hw. simpl. rewrite Hp. reflexivity.
Qed.

(** C5: when every wrapper the THUMBNAIL bundle lookup emits has an empty
    payload, [getThumbnailFor] emits exactly those wrappers, unchanged, and
    raises nothing. *)
Theorem getThumbnailFor_mirrors_bundle_lookup (item : Item) :
  (forall rd, obs_In rd (findByItemAndName item "THUMBNAIL") -> payload rd = None) ->
  getThumbnailFor item =
    obs_map (fun rd => JsOk (as_any AnyBundle rd)) (findByItemAndName item "THUMBNAIL").
Proof.
  unfold getThumbnailFor. generalize (findByItemAndName item "THUMBNAIL") as s.
  induction s as [| e | x r IH]; simpl; intros Hn; auto.
  rewrite (Hn x (or_introl eq_refl)). simpl. f_equal.
  apply IH. intros rd Hrd. apply Hn. now right.
Qed.

(** C6: [findAllByItemAndBundleName] resolves the named bundle with
    [findByItemAndName], then, for a bundle wrapper with a payload, calls
    [findAllByHref] on the bundle's bitstreams link with the given options
    and links to follow, and otherwise emits the bundle wrapper itself. *)
Theorem findAllByItemAndBundleName_composition (item : Item) (bundleName : string)
  (options : option FindListOptions) (linksToFollow : list FollowLinkConfig) :
  findAllByItemAndBundleName item bundleName options linksToFollow =
  switchMap
    (fun bundleRD : RemoteData Bundle =>
       match payload bundleRD with
       | Some b => JsOk (findAllByHref (href (bitstreams (_links b))) options linksToFollow)
       | None => JsOk (OCons (as_absent bundleRD) ONil)
       end)
    (findByItemAndName item bundleName).
Proof.
  unfold findAllByItemAndBundleName. apply switchMap_ext.
  intros rd. destruct (payload rd); reflexivity.
Qed.

(** C7: every wrapper emitted by [getThumbnailFor] or [getMatchingThumbnail]
    either is a collaborator's wrapper passed through (the bundle lookup's or
    the bitstream listing's) or is built by the service, and then satisfies
    the wrapper invariant: succeeded implies no error, not succeeded implies
    an error. *)
Theorem constructed_wrappers_invariant (item : Item) (orig : Bitstream) :
  (forall e, obs_In e (getThumbnailFor item) ->
     wrapper_invariant e \/
     (exists w, obs_In w (findByItemAndName item "THUMBNAIL") /\ e = as_any AnyBundle w) \/
     (exists b w, obs_In w (findAllByHref (href (bitstreams (_links b)))
                               (Some thumbnailOptions) []) /\ e = as_any AnyList w)) /\
  (forall e, obs_In e (getMatchingThumbnail item orig) ->
     wrapper_invariant e \/
     (exists w, obs_In w (findByItemAndName item "THUMBNAIL") /\ e = as_any AnyBundle w) \/
     (exists b w, obs_In w (findAllByHref (href (bitstreams (_links b)))
                               (Some matchingThumbnailOptions) []) /\ e = as_any AnyList w)).
Proof.
  split; intros e He; apply obs_In_switchMap in He;
    destruct He as (bundleRD & inner & Hin & Hf & He);
    destruct (payload bundleRD) as [b |] eqn:Hp;
    simpl in Hf; injection Hf as <-.
  - apply obs_In_map in He. destruct He as (w & Hw & Hfw).
    destruct (thumbnailFromPage_cases w e Hfw) as [Hi | Heq]; [now left |].
    right; right. exists b, w. auto.
  - simpl in He. destruct He as [He | []]. subst. right; left. eauto.
  - apply obs_In_map in He. destruct He as (w & Hw & Hfw).
    destruct (matchingFromPage_cases orig w e Hfw) as [Hi | Heq]; [now left |].
    right; right. exists b, w. auto.
  - simpl in He. destruct He as [He | []]. subst. right; left. eauto.
Qed.

(** C8: as long as the collaborators' streams complete without error,
    [getThumbnailFor], [getMatchingThumbnail], [findAllByBundle] and
    [findAllByItemAndBundleName] raise no exception while processing the
    wrappers they emit: the resulting streams complete without error. *)
Theorem bitstream_service_no_exception (item : Item) (orig : Bitstream)
  (bundle : Bundle) (bundleName : string)
  (options : option FindListOptions) (linksToFollow : list FollowLinkConfig) :
  (forall it n, obs_no_err (findByItemAndName it n)) ->
  (forall h o l, obs_no_err (findAllByHref h o l)) ->
  obs_no_err (getThumbnailFor item) /\
  obs_no_err (getMatchingThumbnail item orig) /\
  (exists s, findAllByBundle (Some bundle) options linksToFollow = JsOk s /\
             obs_no_err s) /\
  obs_no_err (findAllByItemAndBundleName item bundleName options linksToFollow).
Proof.
  intros HB HS. repeat split.
  - apply obs_no_err_switchMap; [| apply HB].
    intros rd _. destruct (payload rd) as [b |]; simpl.
    + eexists. split; [reflexivity |].
      apply obs_no_err_map; [apply thumbnailFromPage_total | apply HS].
    + eexists. split; [reflexivity | exact I].
  - apply obs_no_err_switchMap; [| apply HB].
    intros rd _. destruct (payload rd) as [b |]; simpl.
    + eexists. split; [reflexivity |].
      apply obs_no_err_map; [apply matchingFromPage_total | apply HS].
    + eexists. split; [reflexivity | exact I].
  - eexists. split; [reflexivity | apply HS].
  - apply obs_no_err_switchMap; [| apply HB].
    intros rd _. destruct (payload rd) as [b |]; simpl.
    + eexists. split; [reflexivity | apply HS].
    + eexists. split; [reflexivity | exact I].
Qed.

(** C9: when the THUMBNAIL bundle resolves with a payload and the listing
    succeeds with an empty page, [getThumbnailFor] emits a wrapper with
    [hasSucceeded = true] and an absent payload, not a Failed wrapper. *)
Theorem getThumbnailFor_empty_page (item : Item)
  (bundleRD : RemoteData Bundle) (b : Bundle)
  (bitstreamRD : RemoteData (PaginatedList Bitstream))
  (pl : PaginatedList Bitstream) :
  findByItemAndName item "THUMBNAIL" = OCons bundleRD ONil ->
  payload bundleRD = Some b ->
  findAllByHref (href (bitstreams (_links b))) (Some thumbnailOptions) [] =
    OCons bitstreamRD ONil ->
  hasSucceeded bitstreamRD = true ->
  payload bitstreamRD = Some pl ->
  page pl = Some [] ->
  exists rd, getThumbnailFor item = OCons rd ONil /\
    hasSucceeded rd = true /\ payload rd = None.
Proof.
  intros Hb Hbp Hs _ Hsp Hpg.
  unfold getThumbnailFor. rewrite Hb. simpl. rewrite Hbp. simpl.
  rewrite Hs. simpl. unfold thumbnailFromPage, hasPage. rewrite Hsp. simpl.
  rewrite Hpg. simpl. eexists. split; [reflexivity | split; reflexivity].
Qed.

(** ** Further properties *)



Lemma obs_no_err_map_total {A B : Type} (f : A -> Js B) (s : obs A) :
  (forall a, exists b, f a = JsOk b) -> obs_no_err (obs_map f s) <-> obs_no_err s.
Proof.
  intros Hf. induction s as [| e | x r IH]; simpl; try tauto.
  destruct (Hf x) as [y Hy]. rewrite Hy. exact IH.
Qed.

Lemma obs_error_app {A : Type} (s t : obs A) :
  obs_no_err s -> obs_error (obs_app s t) = obs_error t.
Proof. induction s; simpl; intuition. Qed.

Lemma obs_error_map {A B : Type} (f : A -> Js B) (s : obs A) :
  (forall a, exists b, f a = JsOk b) -> obs_error (obs_map f s) = obs_error s.
Proof.
  intros Hf. induction s as [| e | x r IH]; simpl; auto.
  destruct (Hf x) as [y Hy]. rewrite Hy. exact IH.
Qed.




(** Error notifications of the bundle lookup are forwarded, not swallowed:
    when the listing streams complete without error, each of the three
    lookups ends with exactly the error (or completion) of its bundle
    lookup stream. *)
Theorem lookups_forward_bundle_error (item : Item) (orig : Bitstream) (bundleName : string)
  (options : option FindListOptions) (linksToFollow : list FollowLinkConfig) :
  (forall h o l, obs_no_err (findAllByHref h o l)) ->
  obs_error (getThumbnailFor item) = obs_error (findByItemAndName item "THUMBNAIL") /\
  obs_error (getMatchingThumbnail item orig) = obs_error (findByItemAndName item "THUMBNAIL") /\
  obs_error (findAllByItemAndBundleName item bundleName options linksToFollow) =
    obs_error (findByItemAndName item bundleName).
Proof.
  intros HS. unfold getThumbnailFor, getMatchingThumbnail, findAllByItemAndBundleName.
  repeat split.
  - generalize (findByItemAndName item "THUMBNAIL") as s.
    induction s as [| e | x r IH]; simpl; auto.
    destruct (payload x) as [b |]; simpl; auto.
    rewrite obs_error_app; auto.
    apply obs_no_err_map_total; auto using thumbnailFromPage_total.
  - generalize (findByItemAndName item "THUMBNAIL") as s.
    induction s as [| e | x r IH]; simpl; auto.
    destruct (payload x) as [b |]; simpl; auto.
    rewrite obs_error_app; auto.
    apply obs_no_err_map_total; auto using matchingFromPage_total.
  - generalize (findByItemAndName item bundleName) as s.
    induction s as [| e | x r IH]; simpl; auto.
    destruct (payload x) as [b |]; simpl; auto.
    rewrite obs_error_app; auto.
Qed.



(** With an original whose name is the empty string every bitstream
    matches, so [getMatchingThumbnail] emits the first bitstream of the
    page. *)
Theorem getMatchingThumbnail_empty_name (item : Item) (orig : Bitstream)
  (bundleRD : RemoteData Bundle) (b : Bundle)
  (bitstreamRD : RemoteData (PaginatedList Bitstream))
  (pl : PaginatedList Bitstream) (x : Bitstream) (rest : list Bitstream) :
  name orig = "" ->
  findByItemAndName item "THUMBNAIL" = OCons bundleRD ONil ->
  payload bundleRD = Some b ->
  findAllByHref (href (bitstreams (_links b))) (Some matchingThumbnailOptions) [] =
    OCons bitstreamRD ONil ->
  payload bitstreamRD = Some pl ->
  page pl = Some (x :: rest) ->
  getMatchingThumbnail item orig =
    OCons (mkRemoteData false false true None (Some (AnyBitstream x))) ONil.
Proof.
  intros Hn Hb Hbp Hs Hsp Hpg.
  unfold getMatchingThumbnail. rewrite Hb. simpl. rewrite Hbp. simpl.
  rewrite Hs. simpl. unfold matchingFromPage, hasPage. rewrite Hsp. simpl.
  rewrite Hpg. simpl. unfold startsWith. rewrite Hn.
  destruct (name x); reflexivity.
Qed.

(** When no wrapper of the THUMBNAIL bundle lookup has a payload,
    [getMatchingThumbnail] emits exactly those wrappers, unchanged. *)
Theorem getMatchingThumbnail_mirrors_bundle_lookup (item : Item) (orig : Bitstream) :
  (forall rd, obs_In rd (findByItemAndName item "THUMBNAIL") -> payload rd = None) ->
  getMatchingThumbnail item orig =
    obs_map (fun rd => JsOk (as_any AnyBundle rd)) (findByItemAndName item "THUMBNAIL").
Proof.
  unfold getMatchingThumbnail. generalize (findByItemAndName item "THUMBNAIL") as s.
  induction s as [| e | x r IH]; simpl; intros Hn; auto.
  rewrite (Hn x (or_introl eq_refl)). simpl. f_equal.
  apply IH. intros rd Hrd. apply Hn. now right.
Qed.

(** When no wrapper of the named bundle lookup has a payload,
    [findAllByItemAndBundleName] lists nothing and emits those wrappers with
    their flags and error unchanged. *)
Theorem findAllByItemAndBundleName_mirrors_bundle_lookup (item : Item)
  (bundleName : string) (options : option FindListOptions)
  (linksToFollow : list FollowLinkConfig) :
  (forall rd, obs_In rd (findByItemAndName item bundleName) -> payload rd = None) ->
  findAllByItemAndBundleName item bundleName options linksToFollow =
    obs_map (fun rd => JsOk (as_absent rd)) (findByItemAndName item bundleName).
Proof.
  unfold findAllByItemAndBundleName. generalize (findByItemAndName item bundleName) as s.
  induction s as [| e | x r IH]; simpl; intros Hn; auto.
  rewrite (Hn x (or_introl eq_refl)). simpl. f_equal.
  apply IH. intros rd Hrd. apply Hn. now right.
Qed.

End BitstreamDataService.

(** C10: [getMatchingThumbnail] only lists the THUMBNAIL bitstreams with
    [elementsPerPage = Number.MAX_SAFE_INTEGER] (and no links to follow):
    two listing services that agree on such requests give the same result;
    [getThumbnailFor] likewise only lists them with [elementsPerPage = 1]. *)
Theorem thumbnail_request_page_sizes
  (bundles : Item -> string -> obs (RemoteData Bundle))
  (F G : string -> option FindListOptions -> list FollowLinkConfig ->
         obs (RemoteData (PaginatedList Bitstream)))
  (item : Item) (orig : Bitstream) :
  opt_elementsPerPage matchingThumbnailOptions = Some (2 ^ 53 - 1) /\
  opt_elementsPerPage thumbnailOptions = Some 1 /\
  ((forall h, F h (Some matchingThumbnailOptions) [] =
              G h (Some matchingThumbnailOptions) []) ->
   getMatchingThumbnail bundles F item orig = getMatchingThumbnail bundles G item orig) /\
  ((forall h, F h (Some thumbnailOptions) [] = G h (Some thumbnailOptions) []) ->
   getThumbnailFor bundles F item = getThumbnailFor bundles G item).
Proof.
  repeat split.
  - intros H. unfold getMatchingThumbnail. apply switchMap_ext.
    intros rd. destruct (payload rd); simpl; [now rewrite H | reflexivity].
  - intros H. unfold getThumbnailFor. apply switchMap_ext.
    intros rd. destruct (payload rd); simpl; [now rewrite H | reflexivity].
Qed.

Example getThumbnailFor_cover :
  getThumbnailFor (fixtureBundles (succeeded thumbnailBundle))
    (fixtureBitstreams [coverJpg]) sampleItem =
  OCons (mkRemoteData false false true None (Some (AnyBitstream coverJpg))) ONil.
Proof. reflexivity. Qed.

Example getMatchingThumbnail_cover :
  getMatchingThumbnail (fixtureBundles (succeeded thumbnailBundle))
    (fixtureBitstreams [otherThumb; coverJpgThumb]) sampleItem coverJpg =
  OCons (mkRemoteData false false true None (Some (AnyBitstream coverJpgThumb))) ONil.
Proof. reflexivity. Qed.

(** ** Witnesses and counterexample on the fixture *)

Lemma getMatchingThumbnail_no_match_404_witness :
  exists rd, getMatchingThumbnail (fixtureBundles (succeeded thumbnailBundle))
               (fixtureBitstreams [otherThumb]) sampleItem coverJpg = OCons rd ONil /\
    hasSucceeded rd = false /\
    option_map statusCode (error rd) = Some 404 /\
    option_map message (error rd) = Some "No matching thumbnail found".
Proof.
  eapply (getMatchingThumbnail_no_match_404 _ _ sampleItem coverJpg);
    try reflexivity.
  repeat constructor.
Defined.

Lemma getThumbnailFor_first_of_page_witness :
  opt_elementsPerPage thumbnailOptions = Some 1 /\
  exists rd, getThumbnailFor (fixtureBundles (succeeded thumbnailBundle))
               (fixtureBitstreams [coverJpg; otherThumb]) sampleItem = OCons rd ONil /\
    hasSucceeded rd = true /\ error rd = None /\
    payload rd = Some (AnyBitstream coverJpg).
Proof.
  eapply (getThumbnailFor_first_of_page _ _ sampleItem); reflexivity.
Defined.

Lemma getMatchingThumbnail_first_match_witness :
  exists rd, getMatchingThumbnail (fixtureBundles (succeeded thumbnailBundle))
               (fixtureBitstreams [otherThumb; coverJpgThumb; coverJpg])
               sampleItem coverJpg = OCons rd ONil /\
    hasSucceeded rd = true /\ error rd = None /\
    payload rd = Some (AnyBitstream coverJpgThumb).
Proof.
  eapply (getMatchingThumbnail_first_match _ _ sampleItem coverJpg _ _ _ _
            [otherThumb] [coverJpg] coverJpgThumb); try reflexivity.
  repeat constructor.
Defined.

Lemma getThumbnailFor_absent_cases_witness :
  getThumbnailFor (fixtureBundles pendingBundle) (fixtureBitstreams [coverJpg])
    sampleItem = OCons (as_any AnyBundle pendingBundle) ONil /\
  getThumbnailFor (fixtureBundles (succeeded thumbnailBundle)) (fixtureBitstreams [])
    sampleItem = OCons (mkRemoteData false false true None None) ONil.
Proof.
  split.
  - destruct (getThumbnailFor_absent_cases (fixtureBundles pendingBundle)
                (fixtureBitstreams [coverJpg]) sampleItem pendingBundle eq_refl)
      as [H _].
    apply H. reflexivity.
  - destruct (getThumbnailFor_absent_cases (fixtureBundles (succeeded thumbnailBundle))
                (fixtureBitstreams []) sampleItem (succeeded thumbnailBundle) eq_refl)
      as [_ H].
    destruct (H thumbnailBundle _ eq_refl eq_refl) as [_ H2].
    eapply H2; reflexivity.
Defined.

(** C2 fails on the fixture: with an empty THUMBNAIL page the first element
    is absent, yet the emitted wrapper is a succeeded one without error; with
    a pending bundle lookup the pending wrapper is passed through. *)
Lemma getThumbnailFor_no_404_counterexample :
  ~ (exists rd, getThumbnailFor (fixtureBundles (succeeded thumbnailBundle))
                  (fixtureBitstreams []) sampleItem = OCons rd ONil /\
       hasSucceeded rd = false /\ option_map statusCode (error rd) = Some 404) /\
  ~ (exists rd, getThumbnailFor (fixtureBundles pendingBundle)
                  (fixtureBitstreams []) sampleItem = OCons rd ONil /\
       hasSucceeded rd = false /\ option_map statusCode (error rd) = Some 404).
Proof.
  split; intros (rd & Hout & _ & Herr); vm_compute in Hout;
    injection Hout as <-; discriminate Herr.
Qed.

Lemma getThumbnailFor_mirrors_bundle_lookup_witness :
  getThumbnailFor (fixtureBundles pendingBundle) (fixtureBitstreams [coverJpg]) sampleItem =
  obs_map (fun rd => JsOk (as_any AnyBundle rd))
    (fixtureBundles pendingBundle sampleItem "THUMBNAIL").
Proof.
  apply getThumbnailFor_mirrors_bundle_lookup.
  intros rd Hrd. simpl in Hrd. destruct Hrd as [<- | []]. reflexivity.
Defined.

Lemma bitstream_service_no_exception_witness :
  obs_no_err (getThumbnailFor (fixtureBundles (succeeded thumbnailBundle))
                (fixtureBitstreams [coverJpg]) sampleItem).
Proof.
  destruct (bitstream_service_no_exception (fixtureBundles (succeeded thumbnailBundle))
              (fixtureBitstreams [coverJpg]) sampleItem coverJpg thumbnailBundle
              "ORIGINAL" None [])
    as [H _].
  - intros it n. unfold fixtureBundles. destruct (String.eqb n "THUMBNAIL"); exact I.
  - intros h o l. unfold fixtureBitstreams. destruct (String.eqb h _); exact I.
  - exact H.
Defined.

Lemma getThumbnailFor_empty_page_witness :
  exists rd, getThumbnailFor (fixtureBundles (succeeded thumbnailBundle))
               (fixtureBitstreams []) sampleItem = OCons rd ONil /\
    hasSucceeded rd = true /\ payload rd = None.
Proof.
  eapply (getThumbnailFor_empty_page _ _ sampleItem); reflexivity.
Defined.

Lemma thumbnail_request_page_sizes_witness :
  getMatchingThumbnail (fixtureBundles (succeeded thumbnailBundle))
    (fixtureBitstreams [coverJpgThumb]) sampleItem coverJpg =
  getMatchingThumbnail (fixtureBundles (succeeded thumbnailBundle))
    (fun h o l => match o with
                  | Some (mkFindListOptions (Some 1) _) => ONil
                  | _ => fixtureBitstreams [coverJpgThumb] h o l
                  end) sampleItem coverJpg.
Proof.
  destruct (thumbnail_request_page_sizes (fixtureBundles (succeeded thumbnailBundle))
              (fixtureBitstreams [coverJpgThumb])
              (fun h o l => match o with
                            | Some (mkFindListOptions (Some 1) _) => ONil
                            | _ => fixtureBitstreams [coverJpgThumb] h o l
                            end) sampleItem coverJpg)
    as (_ & _ & H & _).
  apply H. intros h. reflexivity.
Defined.


Lemma lookups_forward_bundle_error_witness :
  obs_error (getThumbnailFor
               (fun _ _ => OCons pendingBundle (OErr "HTTP 500"))
               (fixtureBitstreams [coverJpg]) sampleItem) = Some "HTTP 500".
Proof.
  destruct (lookups_forward_bundle_error
              (fun _ _ => OCons pendingBundle (OErr "HTTP 500"))
              (fixtureBitstreams [coverJpg]) sampleItem coverJpg "ORIGINAL" None [])
    as (H & _ & _).
  - intros h o l. unfold fixtureBitstreams. destruct (String.eqb h _); exact I.
  - rewrite H. reflexivity.
Defined.



Lemma getMatchingThumbnail_empty_name_witness :
  getMatchingThumbnail (fixtureBundles (succeeded thumbnailBundle))
    (fixtureBitstreams [otherThumb; coverJpgThumb]) sampleItem (mkBitstream "bs-9" "") =
  OCons (mkRemoteData false false true None (Some (AnyBitstream otherThumb))) ONil.
Proof.
  eapply (getMatchingThumbnail_empty_name _ _ sampleItem (mkBitstream "bs-9" ""));
    reflexivity.
Defined.

Lemma getMatchingThumbnail_mirrors_bundle_lookup_witness :
  getMatchingThumbnail (fixtureBundles pendingBundle) (fixtureBitstreams [coverJpg])
    sampleItem coverJpg =
  obs_map (fun rd => JsOk (as_any AnyBundle rd))
    (fixtureBundles pendingBundle sampleItem "THUMBNAIL").
Proof.
  apply getMatchingThumbnail_mirrors_bundle_lookup.
  intros rd Hrd. simpl in Hrd. destruct Hrd as [<- | []]. reflexivity.
Defined.

Lemma findAllByItemAndBundleName_mirrors_bundle_lookup_witness :
  findAllByItemAndBundleName (fixtureBundles pendingBundle) (fixtureBitstreams [coverJpg])
    sampleItem "THUMBNAIL" None [] =
  obs_map (fun rd => JsOk (as_absent rd))
    (fixtureBundles pendingBundle sampleItem "THUMBNAIL").
Proof.
  apply findAllByItemAndBundleName_mirrors_bundle_lookup.
  intros rd Hrd. simpl in Hrd. destruct Hrd as [<- | []]. reflexivity.
Defined.
